(** * A shallow embedding of hishel's cache policy controller

    The Python module [hishel/_controller.py] is modelled here: the
    [Controller] class with its methods [is_cachable],
    [get_updated_headers], [get_freshness_lifetime], [get_age],
    [make_request_conditional], [alloweed_stale],
    [construct_response_from_cache] and [handle_validation_response].

    Byte strings ([bytes]) are Rocq [string]s (a Rocq [ascii] is one byte).
    Python exceptions are the [Raise] case of a small error monad [Res].
    In-place mutation of a request object is modelled by returning the
    request as it is after the call. *)

From Stdlib Require Import String Ascii ZArith List Bool Lia.
Import ListNotations.
Open Scope string_scope.
Open Scope list_scope.
Open Scope Z_scope.

(** ** Python exceptions and a small error monad *)

Inductive Exc :=
| IndexError          (* [xs[0]] on an empty list *)
| TypeError           (* [int > None] *)
| DateParseError      (* [parse_date] on an unrecognised value *)
| UnicodeDecodeError. (* [bytes.decode('ascii')] on a non-ASCII byte *)

Inductive Res (A : Type) :=
| Ok (a : A)
| Raise (e : Exc).
Arguments Ok {A} a.
Arguments Raise {A} e.

Definition bind {A B} (m : Res A) (f : A -> Res B) : Res B :=
  match m with
  | Ok a => f a
  | Raise e => Raise e
  end.

Notation "'let*' x ':=' m 'in' f" := (bind m (fun x => f))
  (at level 200, x name, m at level 100, f at level 200).

(** Python's [xs[0]]. *)
Definition index0 {A} (xs : list A) : Res A :=
  match xs with
  | x :: _ => Ok x
  | [] => Raise IndexError
  end.

(** ** Bytes *)

Definition header := (string * string)%type.

(** [bytes.lower()]: only the ASCII letters A-Z are changed. *)
Definition lower_char (c : ascii) : ascii :=
  let n := nat_of_ascii c in
  if (65 <=? n)%nat && (n <=? 90)%nat then ascii_of_nat (n + 32) else c.

Fixpoint lower (s : string) : string :=
  match s with
  | EmptyString => EmptyString
  | String c s' => String (lower_char c) (lower s')
  end.

(** ASCII case-insensitive comparison of header names. *)
Definition name_eq (a b : string) : bool := String.eqb (lower a) (lower b).

(** [bytes.decode('ascii')]. *)
Definition decode_ascii (s : string) : Res string :=
  if forallb (fun c => (nat_of_ascii c <? 128)%nat) (list_ascii_of_string s)
  then Ok s else Raise UnicodeDecodeError.

(** ** Header utilities (hishel/_utils.py) *)

(** Modelled from the spec: [header_presents] of [hishel/_utils.py], which is
    not among the repository's files; "case-insensitive membership test". *)
Definition header_presents (headers : list header) (name : string) : bool :=
  existsb (fun h => name_eq (fst h) name) headers.

(** Modelled from the spec: [extract_header_values] of [hishel/_utils.py];
    "returns all values for a case-insensitively matching name, in original
    order; if [single] is set, returns at most one (the first match)". *)
Definition extract_header_values (headers : list header) (name : string)
    (single : bool) : list string :=
  let vs := map snd (filter (fun h => name_eq (fst h) name) headers) in
  if single then firstn 1 vs else vs.

(** Modelled from the spec: [extract_header_values_decoded] of
    [hishel/_utils.py], [extract_header_values] with each value decoded to
    [str]; with bytes and [str] both modelled as [string], decoding is the
    identity. *)
Definition extract_header_values_decoded (headers : list header) (name : string)
    (single : bool) : list string :=
  extract_header_values headers name single.

(** ** Cache-Control directives (hishel/_headers.py) *)

Record CacheControl := {
  no_store : bool;
  no_cache : bool;
  public : bool;
  private : bool;
  must_revalidate : bool;
  max_age : option Z;
  s_maxage : option Z
}.

Definition cc_empty : CacheControl :=
  {| no_store := false; no_cache := false; public := false; private := false;
     must_revalidate := false; max_age := None; s_maxage := None |}.

Fixpoint split_on (sep : ascii) (s : string) : list string :=
  match s with
  | EmptyString => [""]
  | String c s' =>
      if Ascii.eqb c sep then "" :: split_on sep s'
      else match split_on sep s' with
           | [] => [String c ""]
           | w :: ws => String c w :: ws
           end
  end.

(** The text before the first [sep], and the text after it if there is one. *)
Fixpoint split_first (sep : ascii) (s : string) : string * option string :=
  match s with
  | EmptyString => ("", None)
  | String c s' =>
      if Ascii.eqb c sep then ("", Some s')
      else let (a, b) := split_first sep s' in (String c a, b)
  end.

Definition is_space (c : ascii) : bool :=
  Ascii.eqb c " " || Ascii.eqb c (ascii_of_nat 9).

Fixpoint drop_spaces (l : list ascii) : list ascii :=
  match l with
  | c :: l' => if is_space c then drop_spaces l' else l
  | [] => []
  end.

Definition trim (s : string) : string :=
  string_of_list_ascii
    (rev (drop_spaces (rev (drop_spaces (list_ascii_of_string s))))).

Definition digit_value (c : ascii) : option Z :=
  let n := nat_of_ascii c in
  if (48 <=? n)%nat && (n <=? 57)%nat then Some (Z.of_nat (n - 48)) else None.

Fixpoint digits_val (s : string) (acc : Z) : option Z :=
  match s with
  | EmptyString => Some acc
  | String c s' =>
      match digit_value c with
      | Some d => digits_val s' (acc * 10 + d)
      | None => None
      end
  end.

(** Python's [int(text)] on a trimmed token: an optional sign, then at least
    one decimal digit. *)
Definition parse_int (s : string) : option Z :=
  match s with
  | EmptyString => None
  | String "-" EmptyString | String "+" EmptyString => None
  | String "-" r => option_map Z.opp (digits_val r 0)
  | String "+" r => digits_val r 0
  | _ => digits_val s 0
  end.

Definition set_flag (name : string) (cc : CacheControl) : CacheControl :=
  let '(Build_CacheControl ns nc pu pr mr ma sm) := cc in
  if String.eqb name "no-store" then Build_CacheControl true nc pu pr mr ma sm
  else if String.eqb name "no-cache" then Build_CacheControl ns true pu pr mr ma sm
  else if String.eqb name "public" then Build_CacheControl ns nc true pr mr ma sm
  else if String.eqb name "private" then Build_CacheControl ns nc pu true mr ma sm
  else if String.eqb name "must-revalidate" then Build_CacheControl ns nc pu pr true ma sm
  else cc.

Definition set_value (name value : string) (cc : CacheControl) : CacheControl :=
  let '(Build_CacheControl ns nc pu pr mr ma sm) := cc in
  match parse_int value with
  | Some v =>
      if String.eqb name "max-age" then Build_CacheControl ns nc pu pr mr (Some v) sm
      else if String.eqb name "s-maxage" then Build_CacheControl ns nc pu pr mr ma (Some v)
      else cc
  | None => cc
  end.

Definition apply_token (cc : CacheControl) (token : string) : CacheControl :=
  let (name, value) := split_first "=" (lower (trim token)) in
  match value with
  | None => set_flag (trim name) cc
  | Some v => set_value (trim name) (trim v) cc
  end.

(** Modelled from the spec: [CacheControl.from_value] of [hishel/_headers.py],
    which is not among the repository's files; "split on commas, trim
    whitespace, and parse each token as either a bare flag ... or a
    name=value pair ...; unknown tokens are ignored; numeric values that fail
    to parse as integers are ignored; tokens are matched case-insensitively".
    A later token overrides an earlier one. *)
Definition CacheControl_from_value (values : list string) : CacheControl :=
  fold_left apply_token (flat_map (split_on ",") values) cc_empty.

(** ** HTTP dates (hishel/_utils.py) *)

Definition days_from_civil (y m d : Z) : Z :=
  let y' := if m <=? 2 then y - 1 else y in
  let era := y' / 400 in
  let yoe := y' - era * 400 in
  let mp := if m >? 2 then m - 3 else m + 9 in
  let doy := (153 * mp + 2) / 5 + d - 1 in
  let doe := yoe * 365 + yoe / 4 - yoe / 100 + doy in
  era * 146097 + doe - 719468.

Definition month_number (s : string) : option Z :=
  match s with
  | "Jan" => Some 1 | "Feb" => Some 2 | "Mar" => Some 3 | "Apr" => Some 4
  | "May" => Some 5 | "Jun" => Some 6 | "Jul" => Some 7 | "Aug" => Some 8
  | "Sep" => Some 9 | "Oct" => Some 10 | "Nov" => Some 11 | "Dec" => Some 12
  | _ => None
  end.

Definition day_name (s : string) : bool :=
  existsb (String.eqb s) ["Mon"; "Tue"; "Wed"; "Thu"; "Fri"; "Sat"; "Sun"].

Definition digits (s : string) : option Z :=
  match s with EmptyString => None | _ => digits_val s 0 end.

(** Modelled from the spec: [parse_date] of [hishel/_utils.py], which is not
    among the repository's files; it "parses an HTTP-date value ... into a
    Unix-epoch integer" and fails on unrecognised formats ([None] here).
    Only the IMF-fixdate form [Sun, 06 Nov 1994 08:49:37 GMT] is recognised.
    The controller below takes the date parser as a parameter, so its
    theorems hold for any parser; this one serves the concrete examples. *)
Definition parse_date_imf (s : string) : option Z :=
  if negb (Nat.eqb (String.length s) 29) then None else
  if negb (day_name (substring 0 3 s)) then None else
  if negb (String.eqb (substring 3 2 s) ", ") then None else
  if negb (String.eqb (substring 25 4 s) " GMT") then None else
  match digits (substring 5 2 s), month_number (substring 8 3 s),
        digits (substring 12 4 s), digits (substring 17 2 s),
        digits (substring 20 2 s), digits (substring 23 2 s) with
  | Some d, Some mo, Some y, Some hh, Some mi, Some ss =>
      if String.eqb (substring 7 1 s) " " && String.eqb (substring 11 1 s) " "
         && String.eqb (substring 16 1 s) " " && String.eqb (substring 19 1 s) ":"
         && String.eqb (substring 22 1 s) ":"
         && (1 <=? d) && (d <=? 31) && (hh <=? 23) && (mi <=? 59) && (ss <=? 60)
      then Some (days_from_civil y mo d * 86400 + hh * 3600 + mi * 60 + ss)
      else None
  | _, _, _, _, _, _ => None
  end.

(** ** Requests, responses and the controller (hishel/_controller.py) *)

Record Request := {
  method : string;
  req_headers : list header
}.

Record Response := {
  status : Z;
  headers : list header
}.

Record Controller := {
  _cacheable_methods : list string;
  _cacheable_status_codes : list Z
}.

(** [Controller.__init__]: [None] and the empty list are both falsy. *)
Definition Controller_init (cacheable_methods : option (list string))
    (cacheable_status_codes : option (list Z)) : Controller :=
  {| _cacheable_methods :=
       match cacheable_methods with Some ((_ :: _) as l) => l | _ => ["GET"] end;
     _cacheable_status_codes :=
       match cacheable_status_codes with Some ((_ :: _) as l) => l | _ => [200] end |}.

Definition HEURISTICALLY_CACHABLE : list Z :=
  [200; 203; 204; 206; 300; 301; 308; 404; 405; 410; 414; 501].

(** What [construct_response_from_cache] returns: the stored response, the
    request object it was given, or (line 181) the class [Request] itself. *)
Inductive Returned :=
| ReturnedResponse (r : Response)
| ReturnedRequest (r : Request)
| ReturnedRequestClass.

Section ControllerMethods.

(** [parse_date] of [hishel/_utils.py]: [None] is a [DateParseError]. *)
Variable parse_date : string -> option Z.
(** [time.time()], floored; the date is an integer, so
    [int(max(0, time.time() - date)) = max(0, now - date)]. *)
Variable now : Z.

Definition parse_date_res (s : string) : Res Z :=
  match parse_date s with
  | Some t => Ok t
  | None => Raise DateParseError
  end.

Definition response_cache_control (response : Response) : CacheControl :=
  CacheControl_from_value
    (extract_header_values_decoded response.(headers) "Cache-Control" false).

Definition is_cachable (self : Controller) (request : Request)
    (response : Response) : Res bool :=
  let* m := decode_ascii request.(method) in
  let cc := CacheControl_from_value
              (extract_header_values_decoded response.(headers) "cache-control" false) in
  if negb (existsb (String.eqb m) self.(_cacheable_methods)) then Ok false
  else if Z.eqb (response.(status) / 100) 1 then Ok false
  else if cc.(no_store) then Ok false
  else
    let expires_presents := header_presents response.(headers) "expiers" in
    if negb (existsb id
               [cc.(public); cc.(private); expires_presents;
                match cc.(max_age) with Some _ => true | None => false end;
                existsb (Z.eqb response.(status)) HEURISTICALLY_CACHABLE])
    then Ok false
    else Ok true.

Definition mem (key : string) (checked : list string) : bool :=
  existsb (String.eqb key) checked.

Definition pairs_with (key : string) (values : list string) : list header :=
  map (fun value => (key, value)) values.

(** The first [for] loop of [get_updated_headers]; [checked] is the Python
    set, compared with exact (case-sensitive) byte equality. *)
Fixpoint updated_from_stored (stored new_ : list header) (hs : list header)
    (checked : list string) : list header * list string :=
  match hs with
  | [] => ([], checked)
  | (key, _) :: rest =>
      if negb (mem key checked) && negb (String.eqb (lower key) "content-length") then
        let values := extract_header_values new_ key false in
        let out := match values with
                   | _ :: _ => pairs_with key values
                   | [] => pairs_with key (extract_header_values stored key false)
                   end in
        let (rest_out, checked') := updated_from_stored stored new_ rest (key :: checked) in
        (out ++ rest_out, checked')
      else updated_from_stored stored new_ rest checked
  end.

(** The second [for] loop: [checked] is not updated there. *)
Fixpoint updated_from_new (new_ : list header) (hs : list header)
    (checked : list string) : list header :=
  match hs with
  | [] => []
  | (key, _) :: rest =>
      (if negb (mem key checked) && negb (String.eqb (lower key) "content-length")
       then pairs_with key (extract_header_values new_ key false)
       else [])
      ++ updated_from_new new_ rest checked
  end.

Definition get_updated_headers (self : Controller)
    (stored_response_headers new_response_headers : list header) : list header :=
  let (out1, checked) :=
    updated_from_stored stored_response_headers new_response_headers
      stored_response_headers [] in
  out1 ++ updated_from_new new_response_headers new_response_headers checked.

Definition get_freshness_lifetime (self : Controller) (response : Response)
    : Res (option Z) :=
  let cc := response_cache_control response in
  match cc.(max_age) with
  | Some m => Ok (Some m)
  | None =>
      if header_presents response.(headers) "expires" then
        let* expires := index0 (extract_header_values_decoded response.(headers) "expires" true) in
        let* expires_timestamp := parse_date_res expires in
        let* date := index0 (extract_header_values_decoded response.(headers) "date" true) in
        let* date_timestamp := parse_date_res date in
        Ok (Some (expires_timestamp - date_timestamp))
      else Ok None
  end.

Definition get_age (self : Controller) (response : Response) : Res Z :=
  let* d := index0 (extract_header_values_decoded response.(headers) "date" false) in
  let* date := parse_date_res d in
  Ok (Z.max 0 (now - date)).

(** Python truthiness of [last_modified] / [etag]: [None] and [b''] are
    false. *)
Definition truthy (v : option string) : option string :=
  match v with
  | Some s => if String.eqb s "" then None else Some s
  | None => None
  end.

Definition make_request_conditional (self : Controller) (request : Request)
    (response : Response) : Res Request :=
  let* last_modified :=
    if header_presents response.(headers) "last-modified" then
      let* v := index0 (extract_header_values response.(headers) "last-modified" true) in
      Ok (Some v)
    else Ok None in
  let* etag :=
    if header_presents response.(headers) "etag" then
      let* v := index0 (extract_header_values response.(headers) "etag" true) in
      Ok (Some v)
    else Ok None in
  let precondition_headers :=
    match truthy last_modified with
    | Some v => [("If-Unmodified-Since", v)]
    | None => []
    end ++
    match truthy etag with
    | Some v => [("If-None-Match", v)]
    | None => []
    end in
  Ok {| method := request.(method);
        req_headers := request.(req_headers) ++ precondition_headers |}.

Definition alloweed_stale (self : Controller) (response : Response) : bool :=
  let cc := response_cache_control response in
  if cc.(no_cache) then false
  else if cc.(must_revalidate) then false
  else true.

(** The result, and the caller's request object as it is after the call. *)
Definition construct_response_from_cache (self : Controller) (request : Request)
    (response : Response) : Res (Returned * Request) :=
  let cc := response_cache_control response in
  if cc.(no_cache) then
    let* request' := make_request_conditional self request response in
    Ok (ReturnedRequest request', request')
  else
    let* freshness_lifetime := get_freshness_lifetime self response in
    let* age := get_age self response in
    let* is_fresh :=
      match freshness_lifetime with
      | Some l => Ok (age >? l)
      | None => Raise TypeError
      end in
    if is_fresh || alloweed_stale self response then
      Ok (ReturnedResponse response, request)
    else
      let* request' := make_request_conditional self request response in
      Ok (ReturnedRequestClass, request').

Definition handle_validation_response (self : Controller)
    (old_response new_response : Response) : Response :=
  if Z.eqb new_response.(status) 304 then
    {| status := old_response.(status);
       headers := get_updated_headers self old_response.(headers) new_response.(headers) |}
  else new_response.

End ControllerMethods.

Definition not_content_length (h : header) : Prop :=
  lower (fst h) <> "content-length".

(** ** Concrete inputs used by the examples below *)

Definition D0 : string := "Sun, 06 Nov 1994 08:49:37 GMT".
Definition D1 : string := "Sun, 06 Nov 1994 08:51:17 GMT".
Definition default_controller : Controller := Controller_init None None.
Definition get_request : Request :=
  {| method := "GET"; req_headers := [("Host", "example.com")] |}.

Definition not_found_response : Response :=
  {| status := 404; headers := [("Date", D0)] |}.

Definition max_age_expires_response : Response :=
  {| status := 200;
     headers := [("Date", D0); ("Expires", D1); ("Cache-Control", "max-age=30")] |}.

Definition expires_response : Response :=
  {| status := 200; headers := [("Date", D0); ("Expires", D1)] |}.

Definition expires_without_date_response : Response :=
  {| status := 200; headers := [("Expires", D1)] |}.

Definition bad_date_response : Response :=
  {| status := 200; headers := [("Date", "yesterday"); ("Expires", D1)] |}.

Definition bad_expires_response : Response :=
  {| status := 200; headers := [("Date", D0); ("Expires", "0")] |}.

Definition empty_validators_response : Response :=
  {| status := 200; headers := [("Date", D0); ("Last-Modified", ""); ("ETag", "")] |}.

Definition validators_response : Response :=
  {| status := 200; headers := [("Date", D0); ("ETag", "v1"); ("last-modified", D0)] |}.

(** Date D0, [max-age=100, must-revalidate], ETag and Last-Modified. *)
Definition must_revalidate_response : Response :=
  {| status := 200;
     headers := [("Date", D0); ("Cache-Control", "max-age=100, must-revalidate");
                 ("ETag", "v1"); ("Last-Modified", D0)] |}.

Definition must_revalidate_only_response : Response :=
  {| status := 200; headers := [("Date", D0); ("Cache-Control", "must-revalidate")] |}.

Definition expires_server_error_response : Response :=
  {| status := 500; headers := [("Date", D0); ("Expires", D1)] |}.

Definition non_ascii_request : Request :=
  {| method := String (ascii_of_nat 200) "ET"; req_headers := [] |}.

Definition public_server_error_response : Response :=
  {| status := 500; headers := [("Cache-Control", "public")] |}.

Definition no_cache_response : Response :=
  {| status := 200; headers := [("Date", D0); ("Cache-Control", "no-cache");
                                ("ETag", "v1")] |}.

Definition conditional_get_request : Request :=
  {| method := "GET";
     req_headers := [("Host", "example.com");
                     ("If-Unmodified-Since", D0); ("If-None-Match", "v1")] |}.

Definition etag_conditional_get_request : Request :=
  {| method := "GET";
     req_headers := [("Host", "example.com"); ("If-None-Match", "v1")] |}.

Definition max_age_response : Response :=
  {| status := 200; headers := [("Date", D0); ("Cache-Control", "max-age=100")] |}.

(** Where a merged pair comes from. *)
Definition header_from (stored new_ : list header) (k v : string) : Prop :=
  (exists v', In (k, v') (stored ++ new_)) /\
  (exists h, In h (stored ++ new_) /\ name_eq (fst h) k = true /\ snd h = v).

Definition not_modified_response : Response :=
  {| status := 304; headers := [("Date", D1); ("ETag", "v1"); ("Content-Length", "0")] |}.

Definition stored_ok_response : Response :=
  {| status := 200; headers := [("Date", D0); ("ETag", "v1"); ("Content-Length", "42")] |}.

(** ** Helper lemmas *)

Lemma pairs_with_not_content_length (key : string) (values : list string) :
  String.eqb (lower key) "content-length" = false ->
  Forall not_content_length (pairs_with key values).
Proof.
  intros Hk. apply String.eqb_neq in Hk.
  induction values as [|v vs IH]; simpl; constructor; auto.
Qed.

Lemma guard_not_content_length (key : string) (checked : list string) :
  negb (mem key checked) && negb (String.eqb (lower key) "content-length") = true ->
  String.eqb (lower key) "content-length" = false.
Proof.
  intros H. apply andb_true_iff in H as [_ H]. now apply negb_true_iff in H.
Qed.

Lemma updated_from_stored_not_content_length (stored new_ hs : list header) :
  forall checked,
    Forall not_content_length (fst (updated_from_stored stored new_ hs checked)).
Proof.
  induction hs as [|[key v] rest IH]; intros checked; simpl.
  - constructor.
  - destruct (negb (mem key checked) && negb (String.eqb (lower key) "content-length"))
      eqn:G.
    + pose proof (guard_not_content_length _ _ G) as Hk.
      specialize (IH (key :: checked)).
      destruct (updated_from_stored stored new_ rest (key :: checked)) as [ro ch].
      simpl in *. apply Forall_app. split; [|exact IH].
      match goal with
      | |- Forall _ (match ?l with [] => _ | _ :: _ => _ end) => destruct l
      end; apply pairs_with_not_content_length; exact Hk.
    + apply IH.
Qed.

Lemma updated_from_new_not_content_length (new_ hs : list header) (checked : list string) :
  Forall not_content_length (updated_from_new new_ hs checked).
Proof.
  induction hs as [|[key v] rest IH]; simpl.
  - constructor.
  - apply Forall_app. split; [|exact IH].
    destruct (negb (mem key checked) && negb (String.eqb (lower key) "content-length"))
      eqn:G.
    + apply pairs_with_not_content_length. exact (guard_not_content_length _ _ G).
    + constructor.
Qed.

Lemma filter_nil_of_existsb {A} (f : A -> bool) (l : list A) :
  existsb f l = false -> filter f l = [].
Proof.
  induction l as [|x l IH]; simpl; [reflexivity|].
  destruct (f x); simpl; [discriminate|exact IH].
Qed.

Lemma existsb_of_filter_cons {A} (f : A -> bool) (l : list A) x r :
  filter f l = x :: r -> existsb f l = true.
Proof.
  induction l as [|y l IH]; simpl; [discriminate|].
  destruct (f y); simpl; [reflexivity|exact IH].
Qed.

Lemma extract_absent (hs : list header) (name : string) (single : bool) :
  header_presents hs name = false -> extract_header_values hs name single = [].
Proof.
  unfold header_presents, extract_header_values. intros H.
  rewrite (filter_nil_of_existsb _ _ H). destruct single; reflexivity.
Qed.

Lemma extract_single_present (hs : list header) (name v : string) (r : list string) :
  extract_header_values hs name true = v :: r -> header_presents hs name = true.
Proof.
  unfold header_presents, extract_header_values. simpl.
  destruct (filter (fun h => name_eq (fst h) name) hs) as [|h t] eqn:F;
    simpl; [discriminate|].
  intros _. exact (existsb_of_filter_cons _ _ _ _ F).
Qed.

Lemma extract_single_shape (hs : list header) (name : string) :
  extract_header_values hs name true = [] \/
  exists v, extract_header_values hs name true = [v].
Proof.
  unfold extract_header_values. simpl.
  destruct (map snd (filter (fun h => name_eq (fst h) name) hs)) as [|v t];
    [left; reflexivity | right; exists v; reflexivity].
Qed.

Lemma extract_single_none (hs : list header) (name : string) :
  extract_header_values hs name true = [] -> header_presents hs name = false.
Proof.
  unfold header_presents, extract_header_values. simpl.
  destruct (filter (fun h => name_eq (fst h) name) hs) as [|h t] eqn:F;
    simpl; [|discriminate].
  intros _. destruct (existsb (fun h => name_eq (fst h) name) hs) eqn:E; [|reflexivity].
  apply existsb_exists in E as [x [Hin Hx]].
  assert (In x (filter (fun h => name_eq (fst h) name) hs)) as Hf
    by (apply filter_In; auto).
  rewrite F in Hf. destruct Hf.
Qed.

(** ** Sanity checks *)

Example parse_date_imf_D0 : parse_date_imf D0 = Some 784111777.
Proof. reflexivity. Qed.

(** ** C9: Content-Length is never in the merged header list *)

(** C9: for all stored and new header lists, no pair in the output of
    [get_updated_headers] has a name equal to [Content-Length] under ASCII
    case-insensitive comparison. *)
Theorem get_updated_headers_no_content_length (self : Controller)
    (stored_response_headers new_response_headers : list header) :
  Forall (fun h => lower (fst h) <> "content-length")
    (get_updated_headers self stored_response_headers new_response_headers).
Proof.
  unfold get_updated_headers.
  pose proof (updated_from_stored_not_content_length stored_response_headers
                new_response_headers stored_response_headers []) as H1.
  destruct (updated_from_stored stored_response_headers new_response_headers
              stored_response_headers []) as [out1 checked].
  apply Forall_app. split; [exact H1|].
  apply updated_from_new_not_content_length.
Qed.

(** ** C10: the configured status codes are never consulted *)

Lemma is_cachable_heuristic (self : Controller) (request : Request)
    (response : Response) :
  let cc := response_cache_control response in
  decode_ascii request.(method) = Ok request.(method) ->
  existsb (String.eqb request.(method)) self.(_cacheable_methods) = true ->
  Z.eqb (response.(status) / 100) 1 = false ->
  cc.(no_store) = false -> cc.(public) = false -> cc.(private) = false ->
  cc.(max_age) = None ->
  header_presents response.(headers) "expiers" = false ->
  is_cachable self request response
  = Ok (existsb (Z.eqb response.(status)) HEURISTICALLY_CACHABLE).
Proof.
  intros cc Hd Hm H1 Hns Hpu Hpr Hma He. subst cc.
  unfold is_cachable. rewrite Hd. cbn [bind].
  change (CacheControl_from_value
            (extract_header_values_decoded response.(headers) "cache-control" false))
    with (response_cache_control response).
  rewrite Hm, H1, Hns, Hpu, Hpr, Hma, He. cbn zeta.
  destruct (existsb (Z.eqb response.(status)) HEURISTICALLY_CACHABLE); reflexivity.
Qed.

(** C10: two controllers built with the same [cacheable_methods] argument and
    any two [cacheable_status_codes] arguments give identical results for
    every operation on identical inputs; and with no public, private,
    max-age or Expires-typo signal, [is_cachable] decides by membership of
    the status in the fixed [HEURISTICALLY_CACHABLE] set. *)
Theorem cacheable_status_codes_unused
    (methods : option (list string)) (codes1 codes2 : option (list Z)) :
  let s1 := Controller_init methods codes1 in
  let s2 := Controller_init methods codes2 in
  (forall request response,
      is_cachable s1 request response = is_cachable s2 request response) /\
  (forall stored new_,
      get_updated_headers s1 stored new_ = get_updated_headers s2 stored new_) /\
  (forall parse_date response,
      get_freshness_lifetime parse_date s1 response
      = get_freshness_lifetime parse_date s2 response) /\
  (forall parse_date now response,
      get_age parse_date now s1 response = get_age parse_date now s2 response) /\
  (forall request response,
      make_request_conditional s1 request response
      = make_request_conditional s2 request response) /\
  (forall response, alloweed_stale s1 response = alloweed_stale s2 response) /\
  (forall parse_date now request response,
      construct_response_from_cache parse_date now s1 request response
      = construct_response_from_cache parse_date now s2 request response) /\
  (forall old_response new_response,
      handle_validation_response s1 old_response new_response
      = handle_validation_response s2 old_response new_response) /\
  (forall request response,
      let cc := response_cache_control response in
      decode_ascii request.(method) = Ok request.(method) ->
      existsb (String.eqb request.(method)) s1.(_cacheable_methods) = true ->
      Z.eqb (response.(status) / 100) 1 = false ->
      cc.(no_store) = false -> cc.(public) = false -> cc.(private) = false ->
      cc.(max_age) = None ->
      header_presents response.(headers) "expiers" = false ->
      is_cachable s1 request response
      = Ok (existsb (Z.eqb response.(status)) HEURISTICALLY_CACHABLE)).
Proof.
  intros s1 s2.
  repeat split; intros; try reflexivity.
  apply is_cachable_heuristic; assumption.
Qed.

Lemma cacheable_status_codes_unused_witness :
  is_cachable (Controller_init None (Some [500])) get_request not_found_response
  = is_cachable (Controller_init None None) get_request not_found_response /\
  is_cachable (Controller_init None (Some [500])) get_request not_found_response
  = Ok true.
Proof.
  destruct (cacheable_status_codes_unused None (Some [500]) None)
    as [Hc [_ [_ [_ [_ [_ [_ [_ Hh]]]]]]]].
  split; [apply Hc|].
  pose proof (Hh get_request not_found_response) as H. cbv zeta in H.
  rewrite H by reflexivity. reflexivity.
Defined.

(** ** C7 and C6: the freshness lifetime *)

(** C7: a max-age directive wins over Expires; without max-age, a present
    Expires header whose value and the Date value both parse gives
    [parse_date Expires - parse_date Date]; without both sources the lifetime
    is unknown ([None]). *)
Theorem get_freshness_lifetime_sources (parse_date : string -> option Z)
    (self : Controller) (response : Response) :
  (forall m, (response_cache_control response).(max_age) = Some m ->
     get_freshness_lifetime parse_date self response = Ok (Some m)) /\
  (forall e d et dt,
     (response_cache_control response).(max_age) = None ->
     extract_header_values response.(headers) "expires" true = [e] ->
     extract_header_values response.(headers) "date" true = [d] ->
     parse_date e = Some et -> parse_date d = Some dt ->
     get_freshness_lifetime parse_date self response = Ok (Some (et - dt))) /\
  ((response_cache_control response).(max_age) = None ->
     header_presents response.(headers) "expires" = false ->
     get_freshness_lifetime parse_date self response = Ok None).
Proof.
  split; [|split].
  - intros m Hm. unfold get_freshness_lifetime. now rewrite Hm.
  - intros e d et dt Hm He Hd Pe Pd. unfold get_freshness_lifetime.
    rewrite Hm, (extract_single_present _ _ _ _ He).
    unfold extract_header_values_decoded. rewrite He, Hd.
    cbn [bind index0]. unfold parse_date_res. rewrite Pe, Pd. reflexivity.
  - intros Hm Hp. unfold get_freshness_lifetime. now rewrite Hm, Hp.
Qed.

Lemma get_freshness_lifetime_sources_witness :
  get_freshness_lifetime parse_date_imf default_controller max_age_expires_response
  = Ok (Some 30) /\
  get_freshness_lifetime parse_date_imf default_controller expires_response
  = Ok (Some (784111877 - 784111777)) /\
  get_freshness_lifetime parse_date_imf default_controller not_found_response
  = Ok None.
Proof.
  split; [|split].
  - apply (proj1 (get_freshness_lifetime_sources parse_date_imf default_controller
                    max_age_expires_response)).
    reflexivity.
  - apply (proj1 (proj2 (get_freshness_lifetime_sources parse_date_imf
                           default_controller expires_response)) D1 D0);
      reflexivity.
  - apply (proj2 (proj2 (get_freshness_lifetime_sources parse_date_imf
                           default_controller not_found_response)));
      reflexivity.
Defined.

(** C6 (counterexample): a response with no max-age, an Expires header and no
    Date header makes [get_freshness_lifetime] raise [IndexError] rather than
    return "lifetime unknown". *)
Lemma get_freshness_lifetime_missing_date_raises :
  get_freshness_lifetime parse_date_imf default_controller
    expires_without_date_response = Raise IndexError.
Proof. reflexivity. Qed.

(** C6 (amended): for a response without max-age whose first Expires value
    is [e], [get_freshness_lifetime] never returns "lifetime unknown": it
    raises [DateParseError] when [e] does not parse, [IndexError] when [e]
    parses but there is no Date header, and [DateParseError] when the first
    Date value does not parse. *)
Theorem get_freshness_lifetime_expires_failures (parse_date : string -> option Z)
    (self : Controller) (response : Response) (e : string) :
  (response_cache_control response).(max_age) = None ->
  extract_header_values response.(headers) "expires" true = [e] ->
  (parse_date e = None ->
     get_freshness_lifetime parse_date self response = Raise DateParseError) /\
  (forall et, parse_date e = Some et ->
     header_presents response.(headers) "date" = false ->
     get_freshness_lifetime parse_date self response = Raise IndexError) /\
  (forall et d, parse_date e = Some et ->
     extract_header_values response.(headers) "date" true = [d] ->
     parse_date d = None ->
     get_freshness_lifetime parse_date self response = Raise DateParseError) /\
  get_freshness_lifetime parse_date self response <> Ok None.
Proof.
  intros Hm He.
  assert (Hg : get_freshness_lifetime parse_date self response
               = let* expires_timestamp := parse_date_res parse_date e in
                 let* date := index0 (extract_header_values response.(headers) "date" true) in
                 let* date_timestamp := parse_date_res parse_date date in
                 Ok (Some (expires_timestamp - date_timestamp))).
  { unfold get_freshness_lifetime. rewrite Hm, (extract_single_present _ _ _ _ He).
    unfold extract_header_values_decoded. rewrite He. reflexivity. }
  rewrite Hg. unfold parse_date_res.
  split; [|split; [|split]].
  - intros Pe. now rewrite Pe.
  - intros et Pe Hd. rewrite Pe, (extract_absent _ _ _ Hd). reflexivity.
  - intros et d Pe Hd Pd. rewrite Pe, Hd. cbn [bind index0]. now rewrite Pd.
  - destruct (parse_date e); cbn [bind]; [|discriminate].
    destruct (extract_single_shape response.(headers) "date") as [Hd|[d Hd]];
      rewrite Hd; cbn [bind index0]; [discriminate|].
    destruct (parse_date d); discriminate.
Qed.

Lemma get_freshness_lifetime_expires_failures_witness :
  get_freshness_lifetime parse_date_imf default_controller bad_expires_response
  = Raise DateParseError /\
  get_freshness_lifetime parse_date_imf default_controller
    expires_without_date_response = Raise IndexError /\
  get_freshness_lifetime parse_date_imf default_controller bad_date_response
  = Raise DateParseError.
Proof.
  split; [|split].
  - apply (get_freshness_lifetime_expires_failures parse_date_imf default_controller
             bad_expires_response "0"); reflexivity.
  - apply (get_freshness_lifetime_expires_failures parse_date_imf default_controller
             expires_without_date_response D1 eq_refl eq_refl) with (et := 784111877);
      reflexivity.
  - apply (get_freshness_lifetime_expires_failures parse_date_imf default_controller
             bad_date_response D1 eq_refl eq_refl) with (et := 784111877) (d := "yesterday");
      reflexivity.
Defined.

(** ** C8: conditional requests *)

(** C8 (counterexample): Last-Modified and ETag are both present on the stored
    response, but with empty values, and [make_request_conditional] leaves the
    request unmodified. *)
Lemma make_request_conditional_empty_values :
  header_presents empty_validators_response.(headers) "last-modified" = true /\
  header_presents empty_validators_response.(headers) "etag" = true /\
  make_request_conditional default_controller get_request empty_validators_response
  = Ok get_request.
Proof. split; [|split]; reflexivity. Qed.

(** The value one stored validator yields: its first value, if present. *)
Lemma validator_value (hs : list header) (name : string) :
  (if header_presents hs name then
     let* v := index0 (extract_header_values hs name true) in Ok (Some v)
   else Ok None)
  = Ok (hd_error (extract_header_values hs name true)).
Proof.
  destruct (extract_single_shape hs name) as [H|[v H]].
  - rewrite (extract_single_none _ _ H), H. reflexivity.
  - rewrite (extract_single_present _ _ _ _ H), H. reflexivity.
Qed.

(** C8 (amended): [make_request_conditional] never raises; it keeps the
    method and every pre-existing request header and appends, in this order,
    [If-Unmodified-Since] with the first stored Last-Modified value when that
    header is present with a non-empty value, then [If-None-Match] with the
    first stored ETag value when that header is present with a non-empty
    value; when neither is present with a non-empty value, the request is left
    unmodified. *)
Theorem make_request_conditional_appends (self : Controller) (request : Request)
    (response : Response) :
  exists pre_last_modified pre_etag,
    make_request_conditional self request response
    = Ok {| method := request.(method);
            req_headers := request.(req_headers) ++ pre_last_modified ++ pre_etag |} /\
    (forall v, extract_header_values response.(headers) "last-modified" true = [v] ->
       v <> "" -> pre_last_modified = [("If-Unmodified-Since", v)]) /\
    (header_presents response.(headers) "last-modified" = false \/
     extract_header_values response.(headers) "last-modified" true = [""] ->
       pre_last_modified = []) /\
    (forall v, extract_header_values response.(headers) "etag" true = [v] ->
       v <> "" -> pre_etag = [("If-None-Match", v)]) /\
    (header_presents response.(headers) "etag" = false \/
     extract_header_values response.(headers) "etag" true = [""] ->
       pre_etag = []).
Proof.
  set (part := fun name hdr : string =>
         match extract_header_values response.(headers) name true with
         | v :: _ => if String.eqb v "" then [] else [(hdr, v)]
         | [] => []
         end).
  exists (part "last-modified" "If-Unmodified-Since"), (part "etag" "If-None-Match").
  assert (Hpart : forall name hdr,
    (forall v, extract_header_values response.(headers) name true = [v] ->
       v <> "" -> part name hdr = [(hdr, v)]) /\
    (header_presents response.(headers) name = false \/
     extract_header_values response.(headers) name true = [""] ->
       part name hdr = [])).
  { intros name hdr. unfold part. split.
    - intros v Hv Hne. rewrite Hv. apply String.eqb_neq in Hne. now rewrite Hne.
    - intros [Hp|Hv]; [now rewrite (extract_absent _ _ _ Hp)|now rewrite Hv]. }
  destruct (Hpart "last-modified" "If-Unmodified-Since") as [L1 L2].
  destruct (Hpart "etag" "If-None-Match") as [E1 E2].
  split; [|repeat split; assumption].
  unfold make_request_conditional.
  rewrite !validator_value. cbn [bind]. unfold part.
  destruct (extract_header_values response.(headers) "last-modified" true)
    as [|? ?]; cbn [hd_error truthy];
    try (destruct (String.eqb _ ""));
    destruct (extract_header_values response.(headers) "etag" true) as [|? ?];
    cbn [hd_error truthy]; try (destruct (String.eqb _ "")); reflexivity.
Qed.

Lemma make_request_conditional_appends_witness :
  make_request_conditional default_controller get_request validators_response
  = Ok {| method := "GET";
          req_headers := [("Host", "example.com");
                          ("If-Unmodified-Since", D0); ("If-None-Match", "v1")] |}.
Proof.
  destruct (make_request_conditional_appends default_controller get_request
              validators_response) as [pl [pe [H [L1 [_ [E1 _]]]]]].
  rewrite H, (L1 D0), (E1 "v1"); try reflexivity; discriminate.
Defined.

(** ** C1-C3: serving from the cache *)

Example must_revalidate_response_directives :
  let cc := response_cache_control must_revalidate_response in
  cc.(no_cache) = false /\ cc.(max_age) = Some 100 /\
  alloweed_stale default_controller must_revalidate_response = false.
Proof. repeat split. Qed.

(** C1 (code_bug): at age 150 with a lifetime of 100 and must-revalidate, the
    comparison [is_fresh = age > freshness_lifetime] is true, and
    [construct_response_from_cache] returns the stored response; the request
    is left unmodified. *)
Theorem construct_stale_must_revalidate_serves_stored :
  get_age parse_date_imf (784111777 + 150) default_controller must_revalidate_response
  = Ok 150 /\
  construct_response_from_cache parse_date_imf (784111777 + 150) default_controller
    get_request must_revalidate_response
  = Ok (ReturnedResponse must_revalidate_response, get_request).
Proof. split; reflexivity. Qed.

(** C2 (code_bug): at age 50 with a lifetime of 100 and must-revalidate,
    [construct_response_from_cache] makes the request conditional and returns
    the class [Request], not the stored response. *)
Theorem construct_fresh_must_revalidate_returns_request_class :
  get_age parse_date_imf (784111777 + 50) default_controller must_revalidate_response
  = Ok 50 /\
  construct_response_from_cache parse_date_imf (784111777 + 50) default_controller
    get_request must_revalidate_response
  = Ok (ReturnedRequestClass,
        {| method := "GET";
           req_headers := [("Host", "example.com");
                           ("If-Unmodified-Since", D0); ("If-None-Match", "v1")] |}).
Proof. split; reflexivity. Qed.

(** C3 (code_bug): a stored response with only a Date header has an unknown
    freshness lifetime and allows stale responses, yet
    [construct_response_from_cache] raises [TypeError] ([int > None]). *)
Theorem construct_unknown_lifetime_raises :
  get_freshness_lifetime parse_date_imf default_controller not_found_response = Ok None /\
  alloweed_stale default_controller not_found_response = true /\
  construct_response_from_cache parse_date_imf (784111777 + 10) default_controller
    get_request not_found_response
  = Raise TypeError.
Proof. repeat split. Qed.

(** ** C4: Expires and cacheability *)

(** C4 (code_bug): a GET request and a 500 response with an Expires header
    and no Cache-Control: [is_cachable] looks for the header [expiers] and
    returns false. *)
Theorem is_cachable_ignores_expires :
  header_presents expires_server_error_response.(headers) "expires" = true /\
  is_cachable default_controller get_request expires_server_error_response = Ok false.
Proof. split; reflexivity. Qed.

(** ** C5: header names processed more than once *)

(** C5 (code_bug): a name matching a stored name only up to case, and a
    new-only name occurring twice, each contribute their values twice. *)
Theorem get_updated_headers_duplicates :
  get_updated_headers default_controller [("ETag", "a")] [("etag", "b")]
  = [("ETag", "b"); ("etag", "b")] /\
  get_updated_headers default_controller [] [("X-Custom", "1"); ("X-Custom", "2")]
  = [("X-Custom", "1"); ("X-Custom", "2"); ("X-Custom", "1"); ("X-Custom", "2")].
Proof. split; reflexivity. Qed.

(** The example of the spec: stored [ETag: a], [X-Custom: 1] and new
    [ETag: b] give [ETag: b], [X-Custom: 1]. *)
Example get_updated_headers_spec_example :
  get_updated_headers default_controller [("ETag", "a"); ("X-Custom", "1")] [("ETag", "b")]
  = [("ETag", "b"); ("X-Custom", "1")].
Proof. reflexivity. Qed.

(** ** Further properties of the controller *)

Lemma decode_ascii_ok (s s' : string) : decode_ascii s = Ok s' -> s' = s.
Proof.
  unfold decode_ascii. destruct (forallb _ _); intros H; [now injection H|discriminate].
Qed.

Lemma existsb_eqb_In (s : string) (l : list string) :
  existsb (String.eqb s) l = true -> In s l.
Proof.
  intros H. apply existsb_exists in H as [x [Hx E]].
  apply String.eqb_eq in E. now subst.
Qed.

Lemma status_1xx_div (s : Z) : 100 <= s < 200 -> s / 100 = 1.
Proof. intros H. symmetry. apply Z.div_unique with (r := s - 100); lia. Qed.

(** [is_cachable] accepts only a request method of the controller's list, a
    status outside 100-199 and a response without [no-store]. *)
Theorem is_cachable_true_requires (self : Controller) (request : Request)
    (response : Response) :
  is_cachable self request response = Ok true ->
  In request.(method) self.(_cacheable_methods) /\
  ~ (100 <= response.(status) < 200) /\
  (response_cache_control response).(no_store) = false.
Proof.
  unfold is_cachable. destruct (decode_ascii request.(method)) as [m|e] eqn:D;
    cbn [bind]; [|discriminate].
  apply decode_ascii_ok in D. subst m.
  change (CacheControl_from_value
            (extract_header_values_decoded response.(headers) "cache-control" false))
    with (response_cache_control response).
  destruct (existsb (String.eqb request.(method)) self.(_cacheable_methods)) eqn:M;
    cbn [negb]; [|discriminate].
  destruct (Z.eqb (response.(status) / 100) 1) eqn:S; [discriminate|].
  destruct (response_cache_control response).(no_store); [discriminate|].
  intros _. split; [now apply existsb_eqb_In|split; [|reflexivity]].
  intros H. apply status_1xx_div in H. rewrite H in S. discriminate.
Qed.

Lemma is_cachable_true_requires_witness :
  In "GET" default_controller.(_cacheable_methods) /\
  ~ (100 <= 404 < 200) /\
  (response_cache_control not_found_response).(no_store) = false.
Proof.
  exact (is_cachable_true_requires default_controller get_request not_found_response
           eq_refl).
Defined.

(** [is_cachable] raises [UnicodeDecodeError] exactly when the request method
    has a non-ASCII byte, whatever the response; otherwise it returns a
    boolean. *)
Theorem is_cachable_method_decoding (self : Controller) (request : Request)
    (response : Response) :
  (forallb (fun c => (nat_of_ascii c <? 128)%nat)
     (list_ascii_of_string request.(method)) = false ->
   is_cachable self request response = Raise UnicodeDecodeError) /\
  (forallb (fun c => (nat_of_ascii c <? 128)%nat)
     (list_ascii_of_string request.(method)) = true ->
   exists b, is_cachable self request response = Ok b).
Proof.
  unfold is_cachable, decode_ascii. split; intros H; rewrite H; cbn [bind].
  - reflexivity.
  - destruct (negb _); [eauto|].
    destruct (Z.eqb _ _); [eauto|].
    destruct (no_store _); [eauto|].
    destruct (negb _); eauto.
Qed.

Lemma is_cachable_method_decoding_witness :
  is_cachable default_controller non_ascii_request not_found_response
  = Raise UnicodeDecodeError /\
  exists b, is_cachable default_controller get_request not_found_response = Ok b.
Proof.
  split.
  - apply (proj1 (is_cachable_method_decoding default_controller non_ascii_request
                    not_found_response)); reflexivity.
  - apply (proj2 (is_cachable_method_decoding default_controller get_request
                    not_found_response)); reflexivity.
Defined.

(** A [public], [private] or [max-age] directive makes a response cacheable
    once the method, the status and the absence of [no-store] pass, whatever
    the status code. *)
Theorem is_cachable_explicit_directive (self : Controller) (request : Request)
    (response : Response) :
  let cc := response_cache_control response in
  decode_ascii request.(method) = Ok request.(method) ->
  In request.(method) self.(_cacheable_methods) ->
  ~ (100 <= response.(status) < 200) ->
  cc.(no_store) = false ->
  cc.(public) = true \/ cc.(private) = true \/ cc.(max_age) <> None ->
  is_cachable self request response = Ok true.
Proof.
  intros cc Hd Hm Hs Hns Hdir. subst cc.
  unfold is_cachable. rewrite Hd. cbn [bind].
  change (CacheControl_from_value
            (extract_header_values_decoded response.(headers) "cache-control" false))
    with (response_cache_control response).
  assert (Hm' : existsb (String.eqb request.(method)) self.(_cacheable_methods) = true)
    by (apply existsb_exists; exists request.(method); split;
        [exact Hm|apply String.eqb_refl]).
  rewrite Hm', Hns. cbn [negb].
  destruct (Z.eqb (response.(status) / 100) 1) eqn:S.
  - exfalso. apply Z.eqb_eq in S. apply Hs.
    pose proof (Z.mul_div_le response.(status) 100 ltac:(lia)).
    pose proof (Z.mod_pos_bound response.(status) 100 ltac:(lia)).
    pose proof (Z.div_mod response.(status) 100 ltac:(lia)). lia.
  - cbn zeta. destruct Hdir as [H|[H|H]].
    + rewrite H. reflexivity.
    + rewrite H. destruct (public _); reflexivity.
    + destruct (max_age (response_cache_control response)); [|congruence].
      destruct (public _), (private _), (header_presents _ _); reflexivity.
Qed.

Lemma is_cachable_explicit_directive_witness :
  is_cachable default_controller get_request public_server_error_response = Ok true.
Proof.
  apply is_cachable_explicit_directive.
  - reflexivity.
  - left; reflexivity.
  - simpl; lia.
  - reflexivity.
  - left; reflexivity.
Defined.

Lemma index0_extract_all_single (hs : list header) (name : string) :
  index0 (extract_header_values hs name false) = index0 (extract_header_values hs name true).
Proof.
  unfold extract_header_values. destruct (map snd _); reflexivity.
Qed.

(** [get_age] reads the first Date value: it raises [IndexError] without a
    Date header and [DateParseError] when the value does not parse; otherwise
    it returns [max 0 (now - Date)], so an age is never negative. *)
Theorem get_age_cases (parse_date : string -> option Z) (now : Z)
    (self : Controller) (response : Response) :
  (header_presents response.(headers) "date" = false ->
   get_age parse_date now self response = Raise IndexError) /\
  (forall d, extract_header_values response.(headers) "date" true = [d] ->
   parse_date d = None -> get_age parse_date now self response = Raise DateParseError) /\
  (forall d t, extract_header_values response.(headers) "date" true = [d] ->
   parse_date d = Some t -> get_age parse_date now self response = Ok (Z.max 0 (now - t))) /\
  (forall a, get_age parse_date now self response = Ok a -> 0 <= a).
Proof.
  unfold get_age, extract_header_values_decoded.
  rewrite index0_extract_all_single. unfold parse_date_res.
  split; [|split; [|split]].
  - intros H. now rewrite (extract_absent _ _ _ H).
  - intros d Hd Pd. rewrite Hd. cbn [index0 bind]. now rewrite Pd.
  - intros d t Hd Pd. rewrite Hd. cbn [index0 bind]. now rewrite Pd.
  - intros a. destruct (index0 _); cbn [bind]; [|discriminate].
    destruct (parse_date a0); cbn [bind]; [|discriminate].
    intros H. injection H as <-. lia.
Qed.

Lemma get_age_cases_witness :
  get_age parse_date_imf 0 default_controller expires_without_date_response
  = Raise IndexError /\
  get_age parse_date_imf 0 default_controller bad_date_response = Raise DateParseError /\
  get_age parse_date_imf (784111777 + 7) default_controller not_found_response = Ok 7 /\
  0 <= 0.
Proof.
  destruct (get_age_cases parse_date_imf 0 default_controller
              expires_without_date_response) as [A _].
  destruct (get_age_cases parse_date_imf 0 default_controller bad_date_response)
    as [_ [B _]].
  destruct (get_age_cases parse_date_imf (784111777 + 7) default_controller
              not_found_response) as [_ [_ [C D]]].
  split; [apply A; reflexivity|].
  split; [apply (B "yesterday"); reflexivity|].
  split; [rewrite (C D0 784111777); reflexivity|].
  apply (proj2 (proj2 (proj2 (get_age_cases parse_date_imf 784111777
            default_controller not_found_response)))).
  reflexivity.
Defined.

Lemma make_request_conditional_total (self : Controller) (request : Request)
    (response : Response) :
  exists request', make_request_conditional self request response = Ok request'.
Proof.
  unfold make_request_conditional. rewrite !validator_value. cbn [bind]. eauto.
Qed.

Lemma alloweed_stale_no_cache (self : Controller) (response : Response) :
  alloweed_stale self response = true ->
  (response_cache_control response).(no_cache) = false.
Proof.
  unfold alloweed_stale. destruct (no_cache _); [discriminate|reflexivity].
Qed.

(** What [construct_response_from_cache] returns: the stored response only
    together with the caller's request left as it was; the request object
    only on the [no-cache] path, made conditional; the class [Request] only
    when [no-cache] is absent, with the request made conditional. *)
Theorem construct_response_from_cache_outcomes (parse_date : string -> option Z)
    (now : Z) (self : Controller) (request : Request) (response : Response) :
  (forall r q, construct_response_from_cache parse_date now self request response
               = Ok (ReturnedResponse r, q) -> r = response /\ q = request) /\
  (forall r q, construct_response_from_cache parse_date now self request response
               = Ok (ReturnedRequest r, q) ->
     (response_cache_control response).(no_cache) = true /\ r = q /\
     make_request_conditional self request response = Ok q) /\
  (forall q, construct_response_from_cache parse_date now self request response
             = Ok (ReturnedRequestClass, q) ->
     (response_cache_control response).(no_cache) = false /\
     make_request_conditional self request response = Ok q).
Proof.
  unfold construct_response_from_cache.
  destruct (make_request_conditional_total self request response) as [q0 Hq0].
  destruct (no_cache (response_cache_control response)) eqn:NC.
  - rewrite Hq0. cbn [bind].
    split; [intros r q H; discriminate|split].
    + intros r q H. injection H as <- <-. auto.
    + intros q H. discriminate.
  - destruct (get_freshness_lifetime parse_date self response) as [fl|];
      cbn [bind]; [|repeat split; intros; discriminate].
    destruct (get_age parse_date now self response) as [age|];
      cbn [bind]; [|repeat split; intros; discriminate].
    destruct fl as [l|]; cbn [bind]; [|repeat split; intros; discriminate].
    destruct ((age >? l) || alloweed_stale self response).
    + split; [intros r q H; injection H as <- <-; auto|].
      split; intros; discriminate.
    + rewrite Hq0. cbn [bind].
      split; [intros; discriminate|split; [intros; discriminate|]].
      intros q H. injection H as <-. auto.
Qed.

Lemma construct_response_from_cache_outcomes_witness :
  (must_revalidate_response = must_revalidate_response /\ get_request = get_request) /\
  ((response_cache_control no_cache_response).(no_cache) = true /\
   etag_conditional_get_request = etag_conditional_get_request /\
   make_request_conditional default_controller get_request no_cache_response
   = Ok etag_conditional_get_request) /\
  ((response_cache_control must_revalidate_response).(no_cache) = false /\
   make_request_conditional default_controller get_request must_revalidate_response
   = Ok conditional_get_request).
Proof.
  split; [|split].
  - apply (proj1 (construct_response_from_cache_outcomes parse_date_imf
                    (784111777 + 150) default_controller get_request
                    must_revalidate_response)).
    reflexivity.
  - apply (proj1 (proj2 (construct_response_from_cache_outcomes parse_date_imf
                           784111777 default_controller get_request
                           no_cache_response))).
    reflexivity.
  - apply (proj2 (proj2 (construct_response_from_cache_outcomes parse_date_imf
                           (784111777 + 50) default_controller get_request
                           must_revalidate_response))).
    reflexivity.
Defined.

(** With [no-cache], [construct_response_from_cache] never raises and never
    reads Date, Expires or the clock: it returns the request object made
    conditional. *)
Theorem construct_no_cache_revalidates (parse_date : string -> option Z) (now : Z)
    (self : Controller) (request : Request) (response : Response) :
  (response_cache_control response).(no_cache) = true ->
  exists request',
    make_request_conditional self request response = Ok request' /\
    construct_response_from_cache parse_date now self request response
    = Ok (ReturnedRequest request', request').
Proof.
  intros NC. destruct (make_request_conditional_total self request response) as [q Hq].
  exists q. split; [exact Hq|].
  unfold construct_response_from_cache. rewrite NC, Hq. reflexivity.
Qed.

Lemma construct_no_cache_revalidates_witness :
  exists request',
    make_request_conditional default_controller get_request no_cache_response
    = Ok request' /\
    construct_response_from_cache (fun _ => None) 0 default_controller get_request
      no_cache_response = Ok (ReturnedRequest request', request').
Proof. apply construct_no_cache_revalidates. reflexivity. Defined.

(** When [alloweed_stale] holds and the lifetime and the age are computed,
    [construct_response_from_cache] returns the stored response whatever the
    age. *)
Theorem construct_allows_stale_serves_stored (parse_date : string -> option Z)
    (now : Z) (self : Controller) (request : Request) (response : Response)
    (l age : Z) :
  alloweed_stale self response = true ->
  get_freshness_lifetime parse_date self response = Ok (Some l) ->
  get_age parse_date now self response = Ok age ->
  construct_response_from_cache parse_date now self request response
  = Ok (ReturnedResponse response, request).
Proof.
  intros AS FL AG. unfold construct_response_from_cache.
  rewrite (alloweed_stale_no_cache _ _ AS), FL, AG. cbn [bind].
  rewrite AS, orb_true_r. reflexivity.
Qed.

Lemma construct_allows_stale_serves_stored_witness :
  construct_response_from_cache parse_date_imf (784111777 + 1000000)
    default_controller get_request max_age_response
  = Ok (ReturnedResponse max_age_response, get_request).
Proof.
  apply (construct_allows_stale_serves_stored _ _ _ _ _ 100 1000000);
    reflexivity.
Defined.

(** Without [no-cache], an unknown freshness lifetime makes
    [construct_response_from_cache] raise [TypeError] once the age is
    computed, whatever the age and the directives. *)
Theorem construct_unknown_lifetime_type_error (parse_date : string -> option Z)
    (now : Z) (self : Controller) (request : Request) (response : Response) (age : Z) :
  (response_cache_control response).(no_cache) = false ->
  get_freshness_lifetime parse_date self response = Ok None ->
  get_age parse_date now self response = Ok age ->
  construct_response_from_cache parse_date now self request response = Raise TypeError.
Proof.
  intros NC FL AG. unfold construct_response_from_cache.
  rewrite NC, FL, AG. reflexivity.
Qed.

Lemma construct_unknown_lifetime_type_error_witness :
  construct_response_from_cache parse_date_imf (784111777 + 3) default_controller
    get_request must_revalidate_only_response = Raise TypeError.
Proof.
  apply (construct_unknown_lifetime_type_error _ _ _ _ _ 3); reflexivity.
Defined.

(** Without [no-cache] and without a Date header,
    [construct_response_from_cache] always raises. *)
Theorem construct_without_date_raises (parse_date : string -> option Z) (now : Z)
    (self : Controller) (request : Request) (response : Response) :
  (response_cache_control response).(no_cache) = false ->
  header_presents response.(headers) "date" = false ->
  exists e, construct_response_from_cache parse_date now self request response
            = Raise e.
Proof.
  intros NC ND. unfold construct_response_from_cache. rewrite NC.
  assert (AG : get_age parse_date now self response = Raise IndexError).
  { unfold get_age, extract_header_values_decoded.
    rewrite (extract_absent _ _ _ ND). reflexivity. }
  destruct (get_freshness_lifetime parse_date self response); cbn [bind]; [|eauto].
  rewrite AG. cbn [bind]. eauto.
Qed.

Lemma construct_without_date_raises_witness :
  exists e, construct_response_from_cache parse_date_imf 0 default_controller
              get_request expires_without_date_response = Raise e.
Proof. apply construct_without_date_raises; reflexivity. Defined.

(** ** Merging headers *)

Lemma name_eq_lower (a b : string) : lower a = lower b -> name_eq a b = true.
Proof. intros H. unfold name_eq. rewrite H. apply String.eqb_refl. Qed.

Lemma name_eq_lower_neq (a b : string) : lower a <> lower b -> name_eq a b = false.
Proof. intros H. unfold name_eq. now apply String.eqb_neq. Qed.

(** In a header list whose names are distinct up to case, a name has exactly
    the value it is listed with. *)
Lemma extract_unique (l : list header) (k v : string) :
  NoDup (map (fun h => lower (fst h)) l) -> In (k, v) l ->
  extract_header_values l k false = [v].
Proof.
  unfold extract_header_values. induction l as [|[k' v'] l IH]; intros ND Hin;
    [destruct Hin|].
  simpl in ND. apply NoDup_cons_iff in ND as [Nin ND].
  destruct Hin as [E|Hin].
  - injection E as -> ->. cbn [filter fst]. rewrite name_eq_lower by reflexivity.
    cbn [map snd]. f_equal.
    assert (filter (fun h => name_eq (fst h) k) l = []) as ->; [|reflexivity].
    apply filter_nil_of_existsb.
    destruct (existsb (fun h => name_eq (fst h) k) l) eqn:X; [|reflexivity].
    apply existsb_exists in X as [[k'' v''] [Hin X]].
    unfold name_eq in X. apply String.eqb_eq in X. cbn [fst] in X.
    exfalso. apply Nin. apply in_map_iff. exists (k'', v''). auto.
  - cbn [filter fst].
    rewrite name_eq_lower_neq.
    + exact (IH ND Hin).
    + intros E. apply Nin. rewrite E. apply in_map_iff. exists (k, v). auto.
Qed.

Lemma updated_from_stored_no_new (stored hs : list header) :
  NoDup (map (fun h => lower (fst h)) stored) ->
  forall checked,
  (forall h, In h hs -> In h stored) ->
  NoDup (map (fun h => lower (fst h)) hs) ->
  Forall not_content_length hs ->
  (forall h, In h hs -> mem (fst h) checked = false) ->
  fst (updated_from_stored stored [] hs checked) = hs.
Proof.
  intros NDs. induction hs as [|[k v] rest IH]; intros checked Sub ND CL Mem;
    [reflexivity|].
  cbn [updated_from_stored].
  rewrite (Mem (k, v) (or_introl eq_refl) : mem k checked = false).
  inversion CL as [|? ? Hk CLr]; subst. unfold not_content_length in Hk.
  cbn [fst] in Hk. apply String.eqb_neq in Hk. rewrite Hk. cbn [negb andb].
  change (extract_header_values [] k false) with (@nil string). cbv iota.
  rewrite (extract_unique stored k v NDs (Sub _ (or_introl eq_refl))).
  simpl in ND. apply NoDup_cons_iff in ND as [Nin ND].
  specialize (IH (k :: checked)).
  destruct (updated_from_stored stored [] rest (k :: checked)) as [ro ch] eqn:R.
  cbn [fst] in *. rewrite IH; [reflexivity| | | |].
  - intros h Hh. apply Sub. now right.
  - exact ND.
  - exact CLr.
  - intros [k' v'] Hh. cbn [fst].
    change (mem k' (k :: checked)) with (String.eqb k' k || mem k' checked).
    rewrite (Mem (k', v') (or_intror Hh) : mem k' checked = false).
    destruct (String.eqb k' k) eqn:E; [|reflexivity].
    apply String.eqb_eq in E. subst k'. exfalso. apply Nin.
    apply in_map_iff. exists (k, v'). auto.
Qed.

(** With no new headers, a stored list whose names are distinct up to case
    and which has no Content-Length comes back unchanged, in its order. *)
Theorem get_updated_headers_no_new_headers (self : Controller)
    (stored : list header) :
  NoDup (map (fun h => lower (fst h)) stored) ->
  Forall (fun h => lower (fst h) <> "content-length") stored ->
  get_updated_headers self stored [] = stored.
Proof.
  intros ND CL. unfold get_updated_headers.
  pose proof (updated_from_stored_no_new stored stored ND [] (fun h H => H) ND CL
                (fun _ _ => eq_refl)) as H.
  destruct (updated_from_stored stored [] stored []) as [o c].
  cbn [fst] in H. subst o. apply app_nil_r.
Qed.

Lemma get_updated_headers_no_new_headers_witness :
  get_updated_headers default_controller
    [("Date", D0); ("ETag", "v1"); ("X-Custom", "1")] []
  = [("Date", D0); ("ETag", "v1"); ("X-Custom", "1")].
Proof.
  apply get_updated_headers_no_new_headers.
  - vm_compute. repeat constructor; simpl; intuition discriminate.
  - repeat constructor; simpl; discriminate.
Defined.

Lemma updated_from_new_fresh (new_ hs : list header) :
  NoDup (map (fun h => lower (fst h)) new_) ->
  (forall h, In h hs -> In h new_) ->
  Forall not_content_length hs ->
  updated_from_new new_ hs [] = hs.
Proof.
  intros NDn. induction hs as [|[k v] rest IH]; intros Sub CL; [reflexivity|].
  inversion CL as [|? ? Hk CLr]; subst. unfold not_content_length in Hk.
  cbn [fst] in Hk. apply String.eqb_neq in Hk.
  cbn [updated_from_new mem existsb]. rewrite Hk. cbn [negb andb].
  rewrite (extract_unique new_ k v NDn (Sub _ (or_introl eq_refl))).
  rewrite IH; [reflexivity| |exact CLr].
  intros h Hh. apply Sub. now right.
Qed.

(** With no stored headers, a new list whose names are distinct up to case
    and which has no Content-Length comes back unchanged, in its order. *)
Theorem get_updated_headers_no_stored_headers (self : Controller)
    (new_ : list header) :
  NoDup (map (fun h => lower (fst h)) new_) ->
  Forall (fun h => lower (fst h) <> "content-length") new_ ->
  get_updated_headers self [] new_ = new_.
Proof.
  intros ND CL. unfold get_updated_headers. cbn [updated_from_stored app].
  exact (updated_from_new_fresh new_ new_ ND (fun h H => H) CL).
Qed.

Lemma get_updated_headers_no_stored_headers_witness :
  get_updated_headers default_controller [] [("Date", D1); ("ETag", "v2")]
  = [("Date", D1); ("ETag", "v2")].
Proof.
  apply get_updated_headers_no_stored_headers.
  - vm_compute. repeat constructor; simpl; intuition discriminate.
  - repeat constructor; simpl; discriminate.
Defined.

Lemma pairs_with_extract_In (l : list header) (key k v : string) :
  In (k, v) (pairs_with key (extract_header_values l key false)) ->
  k = key /\ exists h, In h l /\ name_eq (fst h) key = true /\ snd h = v.
Proof.
  unfold pairs_with, extract_header_values. intros H.
  apply in_map_iff in H as [v0 [E H]]. injection E as -> ->. split; [reflexivity|].
  apply in_map_iff in H as [h [E H]]. apply filter_In in H as [H N].
  exists h. auto.
Qed.

Lemma updated_from_stored_from (stored new_ hs : list header) :
  (forall h, In h hs -> In h stored) ->
  forall checked k v,
  In (k, v) (fst (updated_from_stored stored new_ hs checked)) ->
  header_from stored new_ k v.
Proof.
  induction hs as [|[key v0] rest IH]; intros Sub checked k v; [intros []|].
  cbn [updated_from_stored].
  assert (Sub' : forall h, In h rest -> In h stored) by (intros; apply Sub; now right).
  destruct (negb (mem key checked) && negb (String.eqb (lower key) "content-length")).
  - destruct (updated_from_stored stored new_ rest (key :: checked)) as [ro ch] eqn:R.
    cbn [fst]. intros H. apply in_app_or in H as [H|H].
    + assert (Hk : In (key, v0) (stored ++ new_))
        by (apply in_or_app; left; apply Sub; now left).
      destruct (extract_header_values new_ key false) as [|x xs] eqn:X;
        [|rewrite <- X in H];
        apply pairs_with_extract_In in H as [-> [h [Hh [N V]]]];
        (split; [now exists v0|exists h; split; [apply in_or_app|auto]]); auto.
    + specialize (IH Sub' (key :: checked) k v). rewrite R in IH. exact (IH H).
  - apply IH. exact Sub'.
Qed.

Lemma updated_from_new_from (stored new_ hs : list header) :
  (forall h, In h hs -> In h new_) ->
  forall checked k v,
  In (k, v) (updated_from_new new_ hs checked) -> header_from stored new_ k v.
Proof.
  induction hs as [|[key v0] rest IH]; intros Sub checked k v; [intros []|].
  cbn [updated_from_new]. intros H. apply in_app_or in H as [H|H].
  - destruct (negb (mem key checked) && negb (String.eqb (lower key) "content-length"));
      [|destruct H].
    apply pairs_with_extract_In in H as [-> [h [Hh [N V]]]].
    split; [exists v0; apply in_or_app; right; apply Sub; now left|].
    exists h. split; [apply in_or_app; now right|auto].
  - apply (IH (fun h Hh => Sub h (or_intror Hh)) checked). exact H.
Qed.

(** [get_updated_headers] invents no header: every output pair has a name
    that occurs (with that exact spelling) in the stored or the new headers,
    and a value carried in one of them by a name equal to it up to case. *)
Theorem get_updated_headers_provenance (self : Controller)
    (stored new_ : list header) (k v : string) :
  In (k, v) (get_updated_headers self stored new_) ->
  (exists v', In (k, v') (stored ++ new_)) /\
  (exists h, In h (stored ++ new_) /\ name_eq (fst h) k = true /\ snd h = v).
Proof.
  unfold get_updated_headers.
  pose proof (updated_from_stored_from stored new_ stored (fun h H => H) []) as A.
  destruct (updated_from_stored stored new_ stored []) as [o c]. cbn [fst] in A.
  intros H. apply in_app_or in H as [H|H].
  - exact (A k v H).
  - exact (updated_from_new_from stored new_ new_ (fun h H => H) c k v H).
Qed.

Lemma get_updated_headers_provenance_witness :
  (exists v', In ("ETag", v') ([("ETag", "a")] ++ [("etag", "b")])) /\
  (exists h, In h ([("ETag", "a")] ++ [("etag", "b")]) /\
             name_eq (fst h) "ETag" = true /\ snd h = "b").
Proof.
  apply (get_updated_headers_provenance default_controller). simpl. auto.
Defined.

(** [handle_validation_response]: on 304 the result keeps the old status and
    carries the merged headers, which hold no Content-Length; on any other
    status it is the new response itself. *)
Theorem handle_validation_response_cases (self : Controller)
    (old_response new_response : Response) :
  (new_response.(status) = 304 ->
   let r := handle_validation_response self old_response new_response in
   r.(status) = old_response.(status) /\
   r.(headers) = get_updated_headers self old_response.(headers) new_response.(headers) /\
   Forall (fun h => lower (fst h) <> "content-length") r.(headers)) /\
  (new_response.(status) <> 304 ->
   handle_validation_response self old_response new_response = new_response).
Proof.
  unfold handle_validation_response. split; intros H.
  - rewrite H. cbn. split; [reflexivity|split; [reflexivity|]].
    unfold get_updated_headers.
    pose proof (updated_from_stored_not_content_length old_response.(headers)
                  new_response.(headers) old_response.(headers) []) as H1.
    destruct (updated_from_stored old_response.(headers) new_response.(headers)
                old_response.(headers) []) as [out1 checked].
    apply Forall_app. split; [exact H1|].
    apply updated_from_new_not_content_length.
  - apply Z.eqb_neq in H. now rewrite H.
Qed.

Lemma handle_validation_response_cases_witness :
  (handle_validation_response default_controller stored_ok_response
     not_modified_response).(status) = 200 /\
  handle_validation_response default_controller stored_ok_response not_found_response
  = not_found_response.
Proof.
  split.
  - apply (proj1 (handle_validation_response_cases default_controller
                    stored_ok_response not_modified_response) eq_refl).
  - apply (proj2 (handle_validation_response_cases default_controller
                    stored_ok_response not_found_response)).
    simpl; lia.
Defined.
